(** * caffe2/operators/fully_connected_op_gpu.cc

    A shallow embedding of the CUDA dispatch layer of the fully connected
    operator: the two file-local dispatchers
    [RunFullyConnectedOpOnCUDADevice] and
    [RunFullyConnectedGradientOpOnCUDADevice], the [RunOnDevice]
    specialisations that call them, and the operator registrations.

    The dispatchers are effectful: they read the element type of input 0,
    may look up the properties of a CUDA device, may write one log line,
    call one instantiation of [DoRunWithType] and may throw.  The embedding
    keeps all of this observable: a computation yields a completion
    (normal value, [return], or exception) together with the trace of the
    external calls it made, in program order. *)

From Stdlib Require Import ZArith List String Bool Lia.
Import ListNotations.
Local Open Scope string_scope.
Local Open Scope list_scope.
Local Open Scope Z_scope.

(** ** Element types and tensors *)

(** The element type tag of a tensor ([TypeMeta]).  [float] is the full
    precision type, [float16] the half precision one; the other tags stand
    for the remaining element types a tensor can carry. *)
Inductive TypeMeta : Type :=
  | float
  | float16
  | double
  | int32_t
  | int64_t
  | uint8_t
  | other_type (name : string).

Definition TypeMeta_eq_dec (a b : TypeMeta) : {a = b} + {a <> b}.
Proof. decide equality. apply string_dec. Defined.

Record Tensor : Type := { meta : TypeMeta }.

(** Modelled from the spec: [Tensor::IsType<T>()] lives in the tensor
    header; it is the read-only query [elementTypeOf(tensor)] compared with
    the tag of [T]. *)
Definition IsType (T : TypeMeta) (t : Tensor) : bool :=
  if TypeMeta_eq_dec (meta t) T then true else false.

(** ** Devices *)

(** The one field of [cudaDeviceProp] the dispatchers read. *)
Record cudaDeviceProp : Type := { major : Z }.

(** [constexpr int kFp16CUDADevicePropMajor = 6;] *)
Definition kFp16CUDADevicePropMajor : Z := 6.

(** ** Operators *)

(** The state of a [FullyConnectedOp] or [FullyConnectedGradientOp] object
    that is visible from this file: its inputs, the [float16_compute_]
    member, and the device its [CUDAContext] was created for.  The operator
    schema fixes the number of inputs, so [Input] is total here. *)
Record Operator : Type := {
  Input : nat -> Tensor;
  float16_compute_ : bool;
  cuda_gpu_id : Z
}.

(** The template arguments of [FullyConnectedOp::DoRunWithType]. *)
Record FCTypes : Type := {
  T_X : TypeMeta;
  T_W : TypeMeta;
  T_B : TypeMeta;
  T_Y : TypeMeta;
  MATH : TypeMeta
}.

(** The template arguments of [FullyConnectedGradientOp::DoRunWithType]. *)
Record FCGradientTypes : Type := {
  G_X : TypeMeta;
  G_W : TypeMeta;
  G_DY : TypeMeta;
  G_B : TypeMeta;
  G_DX : TypeMeta;
  G_DW : TypeMeta;
  G_DB : TypeMeta;
  G_MATH : TypeMeta
}.

(** ** Effects *)

Inductive LogSeverity : Type := INFO | WARNING | ERROR | FATAL.

(** What the dispatch layer does to the outside world. *)
Inductive Event : Type :=
  | EvGetDeviceProperty (deviceid : Z)
  | EvLog (severity : LogSeverity) (msg : string)
  | EvDoRunWithType (T : FCTypes)
  | EvGradientDoRunWithType (T : FCGradientTypes).

(** How a statement ends: it falls through with a value, executes
    [return b], or throws. *)
Inductive Completion (A : Type) : Type :=
  | Normal (a : A)
  | Returned (b : bool)
  | Thrown (msg : string).
Arguments Normal {A} a.
Arguments Returned {A} b.
Arguments Thrown {A} msg.

Definition Exec (A : Type) : Type := (Completion A * list Event)%type.

Definition ret {A} (a : A) : Exec A := (Normal a, []).

Definition bind {A B} (c : Exec A) (k : A -> Exec B) : Exec B :=
  match c with
  | (Normal a, t1) => let (r, t2) := k a in (r, t1 ++ t2)
  | (Returned b, t1) => (Returned b, t1)
  | (Thrown m, t1) => (Thrown m, t1)
  end.

Declare Scope exec_scope.
Delimit Scope exec_scope with exec.
Notation "x <- c ;; k" := (bind c (fun x => k))
  (at level 100, c at next level, right associativity) : exec_scope.
Notation "c ;; k" := (bind c (fun _ => k))
  (at level 100, right associativity) : exec_scope.
Local Open Scope exec_scope.

(** [return b;] *)
Definition return_ {A} (b : bool) : Exec A := (Returned b, []).

(** [CAFFE_THROW(msg);] *)
Definition CAFFE_THROW {A} (msg : string) : Exec A := (Thrown msg, []).

(** [LOG(severity) << msg;] *)
Definition LOG (severity : LogSeverity) (msg : string) : Exec unit :=
  (Normal tt, [EvLog severity msg]).

(** A function body of return type [bool]: every path through it ends in
    [return] or in an exception, which is what the empty value type says. *)
Definition Body : Type := Exec Empty_set.

(** Calling a function: its [return] value becomes the value of the call
    expression, an exception passes through. *)
Definition call (body : Body) : Exec bool :=
  match body with
  | (Normal e, _) => match e with end
  | (Returned b, t) => (Normal b, t)
  | (Thrown m, t) => (Thrown m, t)
  end.

(** What an external routine hands back: a [bool], or an exception. *)
Inductive Result : Type :=
  | Ok (b : bool)
  | Exception (msg : string).

Definition extern (ev : Event) (r : Result) : Exec bool :=
  match r with
  | Ok b => (Normal b, [ev])
  | Exception m => (Thrown m, [ev])
  end.

(** ** Observations on traces *)

Definition is_query (e : Event) : bool :=
  match e with EvGetDeviceProperty _ => true | _ => false end.

Definition is_log (e : Event) : bool :=
  match e with EvLog _ _ => true | _ => false end.

Definition is_run (e : Event) : bool :=
  match e with
  | EvDoRunWithType _ | EvGradientDoRunWithType _ => true
  | _ => false
  end.

(** The instantiations of the execution routine invoked along a trace. *)
Definition invocations (t : list Event) : list Event := filter is_run t.

(** The log lines written along a trace. *)
Definition log_lines (t : list Event) : list Event := filter is_log t.

(** The device lookups made along a trace. *)
Definition device_queries (t : list Event) : list Event := filter is_query t.

(** The math (accumulation) type of an invocation, if the event is one. *)
Definition math_of (e : Event) : option TypeMeta :=
  match e with
  | EvDoRunWithType T => Some (MATH T)
  | EvGradientDoRunWithType T => Some (G_MATH T)
  | _ => None
  end.

(** The operand (data) types of an invocation. *)
Definition operands_of (e : Event) : list TypeMeta :=
  match e with
  | EvDoRunWithType T => [T_X T; T_W T; T_B T; T_Y T]
  | EvGradientDoRunWithType T =>
      [G_X T; G_W T; G_DY T; G_B T; G_DX T; G_DW T; G_DB T]
  | _ => []
  end.

(** The roles the forward and the backward instantiation have in common:
    X, W, B and Math. *)
Definition shared_roles (e : Event) : option (TypeMeta * TypeMeta * TypeMeta * TypeMeta) :=
  match e with
  | EvDoRunWithType T => Some (T_X T, T_W T, T_B T, MATH T)
  | EvGradientDoRunWithType T => Some (G_X T, G_W T, G_B T, G_MATH T)
  | _ => None
  end.

(** [strictly_lower a b]: [a] is a narrower floating point type than [b]. *)
Definition strictly_lower (a b : TypeMeta) : bool :=
  match a, b with
  | float16, float => true
  | _, _ => false
  end.

(** The three ways a dispatch can go. *)
Inductive Branch : Type :=
  | Success
  | FallbackWithLog
  | UnsupportedType.

(** The branch a dispatch took, read off its completion and its trace.
    With an invocation, a log line marks the fallback.  Without one, the
    dispatch took the unsupported-type branch only if it threw
    "Unsupported type"; an outcome without invocation that ends any other
    way (a normal return, another exception) is none of the three
    branches. *)
Definition branch_of {A} (r : Exec A) : option Branch :=
  match invocations (snd r) with
  | [] =>
      match fst r with
      | Thrown msg =>
          if String.eqb msg "Unsupported type"
          then Some UnsupportedType else None
      | _ => None
      end
  | _ :: _ =>
      match log_lines (snd r) with
      | [] => Some Success
      | _ :: _ => Some FallbackWithLog
      end
  end.

(** ** The dispatchers *)

Section Dispatch.

(** The collaborators that are defined elsewhere in the repository: the
    device property table behind [GetDeviceProperty], and the execution
    routines behind the two [DoRunWithType] templates. *)
Variable device_properties : Z -> cudaDeviceProp.
Variable fc_routine : FCTypes -> Operator -> Result.
Variable fc_gradient_routine : FCGradientTypes -> Operator -> Result.

(** [GetDeviceProperty(deviceid)] *)
Definition GetDeviceProperty (deviceid : Z) : Exec cudaDeviceProp :=
  (Normal (device_properties deviceid), [EvGetDeviceProperty deviceid]).

(** [op->template DoRunWithType<X, W, B, Y, Math>()] *)
Definition DoRunWithType (X W B Y Math : TypeMeta) (op : Operator) : Exec bool :=
  let T := {| T_X := X; T_W := W; T_B := B; T_Y := Y; MATH := Math |} in
  extern (EvDoRunWithType T) (fc_routine T op).

(** [op->template DoRunWithType<X, W, dY, B, dX, dW, dB, Math>()] *)
Definition GradientDoRunWithType (X W DY B DX DW DB Math : TypeMeta)
    (op : Operator) : Exec bool :=
  let T := {| G_X := X; G_W := W; G_DY := DY; G_B := B;
              G_DX := DX; G_DW := DW; G_DB := DB; G_MATH := Math |} in
  extern (EvGradientDoRunWithType T) (fc_gradient_routine T op).

Definition RunFullyConnectedOpOnCUDADevice_body
    (float16_compute : bool) (op : Operator) : Body :=
  ((if IsType float (Input op 0) then
     r <- DoRunWithType
            float (* X *)
            float (* W *)
            float (* B *)
            float (* Y *)
            float (* Math *) op ;;
     return_ r
   else if IsType float16 (Input op 0) then
     if float16_compute then
       prop <- GetDeviceProperty 0 ;;
       if major prop >=? kFp16CUDADevicePropMajor then
         r <- DoRunWithType
                float16 (* X *)
                float16 (* W *)
                float16 (* B *)
                float16 (* Y *)
                float16 (* Math *) op ;;
         return_ r
       else
         LOG INFO "CUDA Device does not support FP16 computation, falling back to FP32." ;;
         r <- DoRunWithType
                float16 (* X *)
                float16 (* W *)
                float16 (* B *)
                float16 (* Y *)
                float (* Math *) op ;;
         return_ r
     else
       r <- DoRunWithType
              float16 (* X *)
              float16 (* W *)
              float16 (* B *)
              float16 (* Y *)
              float (* Math *) op ;;
       return_ r
   else
     CAFFE_THROW "Unsupported type") : Body) ;;
  return_ false.

Definition RunFullyConnectedOpOnCUDADevice
    (float16_compute : bool) (op : Operator) : Exec bool :=
  call (RunFullyConnectedOpOnCUDADevice_body float16_compute op).

Definition RunFullyConnectedGradientOpOnCUDADevice_body
    (float16_compute : bool) (op : Operator) : Body :=
  ((if IsType float (Input op 0) then
     r <- GradientDoRunWithType
            float (*  X *)
            float (*  W *)
            float (* dY *)
            float (*  B *)
            float (* dX *)
            float (* dW *)
            float (* dB *)
            float (* Math *) op ;;
     return_ r
   else if IsType float16 (Input op 0) then
     if float16_compute then
       prop <- GetDeviceProperty 0 ;;
       if major prop >=? kFp16CUDADevicePropMajor then
         r <- GradientDoRunWithType
                float16 (*  X *)
                float16 (*  W *)
                float16 (* dY *)
                float16 (*  B *)
                float16 (* dX *)
                float16 (* dW *)
                float16 (* dB *)
                float16 (* Math *) op ;;
         return_ r
       else
         LOG INFO "CUDA Device does not support FP16 computation, falling back to FP32." ;;
         r <- GradientDoRunWithType
                float16 (*  X *)
                float16 (*  W *)
                float16 (* dY *)
                float16 (*  B *)
                float16 (* dX *)
                float16 (* dW *)
                float16 (* dB *)
                float (* Math *) op ;;
         return_ r
     else
       r <- GradientDoRunWithType
              float16 (*  X *)
              float16 (*  W *)
              float16 (* dY *)
              float16 (*  B *)
              float16 (* dX *)
              float16 (* dW *)
              float16 (* dB *)
              float (* Math *) op ;;
       return_ r
   else
     CAFFE_THROW "Unsupported type") : Body) ;;
  return_ false.

Definition RunFullyConnectedGradientOpOnCUDADevice
    (float16_compute : bool) (op : Operator) : Exec bool :=
  call (RunFullyConnectedGradientOpOnCUDADevice_body float16_compute op).

(** *** The [RunOnDevice] specialisations

    Each one is [return Dispatcher(flag, this);]. *)

(** [FullyConnectedOp<CUDAContext>::RunOnDevice()] *)
Definition FullyConnectedOp_CUDAContext_RunOnDevice
    (this : Operator) : Exec bool :=
  call (r <- RunFullyConnectedOpOnCUDADevice (float16_compute_ this) this ;;
        return_ r).

(** [FullyConnectedOp<CUDAContext, DefaultEngine, false>::RunOnDevice()] *)
Definition FullyConnectedOp_CUDAContext_DefaultEngine_false_RunOnDevice
    (this : Operator) : Exec bool :=
  call (r <- RunFullyConnectedOpOnCUDADevice (float16_compute_ this) this ;;
        return_ r).

(** [FullyConnectedGradientOp<CUDAContext>::RunOnDevice()] *)
Definition FullyConnectedGradientOp_CUDAContext_RunOnDevice
    (this : Operator) : Exec bool :=
  call (r <- RunFullyConnectedGradientOpOnCUDADevice
               (float16_compute_ this) this ;;
        return_ r).

(** [FullyConnectedGradientOp<CUDAContext, DefaultEngine, false>::RunOnDevice()] *)
Definition FullyConnectedGradientOp_CUDAContext_DefaultEngine_false_RunOnDevice
    (this : Operator) : Exec bool :=
  call (r <- RunFullyConnectedGradientOpOnCUDADevice
               (float16_compute_ this) this ;;
        return_ r).

(** [FullyConnectedOp<CUDAContext, TensorCoreEngine>::RunOnDevice()] *)
Definition FullyConnectedOp_CUDAContext_TensorCoreEngine_RunOnDevice
    (this : Operator) : Exec bool :=
  call (r <- RunFullyConnectedOpOnCUDADevice
               false (* float16_compute *) this ;;
        return_ r).

(** [FullyConnectedOp<CUDAContext, TensorCoreEngine, false>::RunOnDevice()] *)
Definition FullyConnectedOp_CUDAContext_TensorCoreEngine_false_RunOnDevice
    (this : Operator) : Exec bool :=
  call (r <- RunFullyConnectedOpOnCUDADevice
               false (* float16_compute *) this ;;
        return_ r).

(** [FullyConnectedGradientOp<CUDAContext, TensorCoreEngine>::RunOnDevice()] *)
Definition FullyConnectedGradientOp_CUDAContext_TensorCoreEngine_RunOnDevice
    (this : Operator) : Exec bool :=
  call (r <- RunFullyConnectedGradientOpOnCUDADevice
               false (* float16_compute *) this ;;
        return_ r).

(** [FullyConnectedGradientOp<CUDAContext, TensorCoreEngine, false>::RunOnDevice()] *)
Definition FullyConnectedGradientOp_CUDAContext_TensorCoreEngine_false_RunOnDevice
    (this : Operator) : Exec bool :=
  call (r <- RunFullyConnectedGradientOpOnCUDADevice
               false (* float16_compute *) this ;;
        return_ r).

End Dispatch.

(** ** Operator classes and registrations *)

Inductive Engine : Type := DefaultEngine | TensorCoreEngine.

(** The class template instances this file deals with.  The template
    parameters after the context are the engine and [TransposeWeight],
    whose defaults are [DefaultEngine] and [true]. *)
Inductive OperatorClass : Type :=
  | FullyConnectedOp (engine : Engine) (TransposeWeight : bool)
  | FullyConnectedGradientOp (engine : Engine) (TransposeWeight : bool).

Definition engine_of (c : OperatorClass) : Engine :=
  match c with
  | FullyConnectedOp e _ | FullyConnectedGradientOp e _ => e
  end.

Definition is_gradient (c : OperatorClass) : bool :=
  match c with
  | FullyConnectedOp _ _ => false
  | FullyConnectedGradientOp _ _ => true
  end.

(** One [REGISTER_CUDA_OPERATOR] or [REGISTER_CUDA_OPERATOR_WITH_ENGINE]
    line: the operator name, the engine key if there is one, and the
    class that is registered. *)
Record Registration : Type := {
  reg_name : string;
  reg_engine : option string;
  reg_class : OperatorClass
}.

Definition REGISTER_CUDA_OPERATOR (name : string) (c : OperatorClass)
    : Registration :=
  {| reg_name := name; reg_engine := None; reg_class := c |}.

Definition REGISTER_CUDA_OPERATOR_WITH_ENGINE
    (name engine : string) (c : OperatorClass) : Registration :=
  {| reg_name := name; reg_engine := Some engine; reg_class := c |}.

Section Binding.

Variable device_properties : Z -> cudaDeviceProp.
Variable fc_routine : FCTypes -> Operator -> Result.
Variable fc_gradient_routine : FCGradientTypes -> Operator -> Result.

(** The preprocessor symbol that guards the TensorCore specialisations. *)
Variable CUDA_VERSION : Z.

(** The [RunOnDevice] this file defines for a class, if it defines one:
    the TensorCore specialisations sit under [#if CUDA_VERSION >= 9000]. *)
Definition RunOnDevice (c : OperatorClass) : option (Operator -> Exec bool) :=
  match c with
  | FullyConnectedOp DefaultEngine true =>
      Some (FullyConnectedOp_CUDAContext_RunOnDevice
              device_properties fc_routine)
  | FullyConnectedOp DefaultEngine false =>
      Some (FullyConnectedOp_CUDAContext_DefaultEngine_false_RunOnDevice
              device_properties fc_routine)
  | FullyConnectedGradientOp DefaultEngine true =>
      Some (FullyConnectedGradientOp_CUDAContext_RunOnDevice
              device_properties fc_gradient_routine)
  | FullyConnectedGradientOp DefaultEngine false =>
      Some (FullyConnectedGradientOp_CUDAContext_DefaultEngine_false_RunOnDevice
              device_properties fc_gradient_routine)
  | FullyConnectedOp TensorCoreEngine true =>
      if CUDA_VERSION >=? 9000 then
        Some (FullyConnectedOp_CUDAContext_TensorCoreEngine_RunOnDevice
                device_properties fc_routine)
      else None
  | FullyConnectedOp TensorCoreEngine false =>
      if CUDA_VERSION >=? 9000 then
        Some (FullyConnectedOp_CUDAContext_TensorCoreEngine_false_RunOnDevice
                device_properties fc_routine)
      else None
  | FullyConnectedGradientOp TensorCoreEngine true =>
      if CUDA_VERSION >=? 9000 then
        Some (FullyConnectedGradientOp_CUDAContext_TensorCoreEngine_RunOnDevice
                device_properties fc_gradient_routine)
      else None
  | FullyConnectedGradientOp TensorCoreEngine false =>
      if CUDA_VERSION >=? 9000 then
        Some (FullyConnectedGradientOp_CUDAContext_TensorCoreEngine_false_RunOnDevice
                device_properties fc_gradient_routine)
      else None
  end.

(** The registrations of the file, in source order. *)
Definition registrations : list Registration :=
  [ REGISTER_CUDA_OPERATOR "FC" (FullyConnectedOp DefaultEngine true);
    REGISTER_CUDA_OPERATOR "FCGradient"
      (FullyConnectedGradientOp DefaultEngine true);
    REGISTER_CUDA_OPERATOR "FCTransposed"
      (FullyConnectedOp DefaultEngine false);
    REGISTER_CUDA_OPERATOR "FCTransposedGradient"
      (FullyConnectedGradientOp DefaultEngine false) ]
  ++
  (if CUDA_VERSION >=? 9000 then
     [ REGISTER_CUDA_OPERATOR_WITH_ENGINE "FC" "TENSORCORE"
         (FullyConnectedOp TensorCoreEngine true);
       REGISTER_CUDA_OPERATOR_WITH_ENGINE "FCGradient" "TENSORCORE"
         (FullyConnectedGradientOp TensorCoreEngine true);
       REGISTER_CUDA_OPERATOR_WITH_ENGINE "FCTransposed" "TENSORCORE"
         (FullyConnectedOp TensorCoreEngine false);
       REGISTER_CUDA_OPERATOR_WITH_ENGINE "FCTransposedGradient" "TENSORCORE"
         (FullyConnectedGradientOp TensorCoreEngine false) ]
   else []).

(** The dispatcher a class of the given direction goes through. *)
Definition dispatcher_of (c : OperatorClass)
    : bool -> Operator -> Exec bool :=
  if is_gradient c
  then RunFullyConnectedGradientOpOnCUDADevice
         device_properties fc_gradient_routine
  else RunFullyConnectedOpOnCUDADevice device_properties fc_routine.

End Binding.

(** ** Vocabulary for the statements *)

(** The value of a call expression whose callee handed back [r]. *)
Definition completion_of (r : Result) : Completion bool :=
  match r with
  | Ok b => Normal b
  | Exception m => Thrown m
  end.

(** The three forward instantiations the dispatcher can select. *)
Definition fc_full : FCTypes :=
  {| T_X := float; T_W := float; T_B := float; T_Y := float; MATH := float |}.

Definition fc_half : FCTypes :=
  {| T_X := float16; T_W := float16; T_B := float16; T_Y := float16;
     MATH := float16 |}.

Definition fc_half_math_full : FCTypes :=
  {| T_X := float16; T_W := float16; T_B := float16; T_Y := float16;
     MATH := float |}.

(** Their backward counterparts. *)
Definition fcg_full : FCGradientTypes :=
  {| G_X := float; G_W := float; G_DY := float; G_B := float;
     G_DX := float; G_DW := float; G_DB := float; G_MATH := float |}.

Definition fcg_half : FCGradientTypes :=
  {| G_X := float16; G_W := float16; G_DY := float16; G_B := float16;
     G_DX := float16; G_DW := float16; G_DB := float16; G_MATH := float16 |}.

Definition fcg_half_math_full : FCGradientTypes :=
  {| G_X := float16; G_W := float16; G_DY := float16; G_B := float16;
     G_DX := float16; G_DW := float16; G_DB := float16; G_MATH := float |}.

Definition fallback_message : string :=
  "CUDA Device does not support FP16 computation, falling back to FP32.".

(** Concrete collaborators and operators for running the model. *)
Definition device_with_major (m : Z) : Z -> cudaDeviceProp :=
  fun _ => {| major := m |}.

Definition routine_returning {T : Type} (b : bool) : T -> Operator -> Result :=
  fun _ _ => Ok b.

Definition operator_on (t : TypeMeta) (flag : bool) (gpu : Z) : Operator :=
  {| Input := fun _ => {| meta := t |};
     float16_compute_ := flag;
     cuda_gpu_id := gpu |}.

(** The first TensorCore registration of the file. *)
Definition tensorcore_fc_registration : Registration :=
  REGISTER_CUDA_OPERATOR_WITH_ENGINE "FC" "TENSORCORE"
    (FullyConnectedOp TensorCoreEngine true).

(** What the routine behind an invocation event handed back for the
    operator, if the event is an invocation. *)
Definition routine_result
    (fc_routine : FCTypes -> Operator -> Result)
    (fc_gradient_routine : FCGradientTypes -> Operator -> Result)
    (this : Operator) (e : Event) : option Result :=
  match e with
  | EvDoRunWithType T => Some (fc_routine T this)
  | EvGradientDoRunWithType T => Some (fc_gradient_routine T this)
  | _ => None
  end.

(** Whether an event is an invocation of the gradient routine. *)
Definition is_gradient_run (e : Event) : bool :=
  match e with EvGradientDoRunWithType _ => true | _ => false end.

(** The key a registration is stored under: operator name and engine. *)
Definition registry_key (r : Registration) : string * option string :=
  (reg_name r, reg_engine r).

(** The naming scheme the registrations follow. *)
Definition operator_name (c : OperatorClass) : string :=
  match c with
  | FullyConnectedOp _ true => "FC"
  | FullyConnectedOp _ false => "FCTransposed"
  | FullyConnectedGradientOp _ true => "FCGradient"
  | FullyConnectedGradientOp _ false => "FCTransposedGradient"
  end.

Definition engine_key (e : Engine) : option string :=
  match e with
  | DefaultEngine => None
  | TensorCoreEngine => Some "TENSORCORE"
  end.

(** The gradient class that goes with a class: same engine, same
    [TransposeWeight]. *)
Definition gradient_class (c : OperatorClass) : OperatorClass :=
  match c with
  | FullyConnectedOp e tw | FullyConnectedGradientOp e tw =>
      FullyConnectedGradientOp e tw
  end.

(** More concrete inputs: an operator whose input 0 has one element type
    and whose other inputs have another, and a device table in which only
    device 0 has a given major revision. *)
Definition operator_with_inputs (t0 rest : TypeMeta) (flag : bool) (gpu : Z)
    : Operator :=
  {| Input := fun i => match i with
                       | O => {| meta := t0 |}
                       | S _ => {| meta := rest |}
                       end;
     float16_compute_ := flag;
     cuda_gpu_id := gpu |}.

Definition device_zero_with_major (m0 others : Z) : Z -> cudaDeviceProp :=
  fun d => {| major := if d =? 0 then m0 else others |}.

(** ** Running the model on the examples of the specification *)

Example forward_half_flag_rev7 :
  RunFullyConnectedOpOnCUDADevice (device_with_major 7) (routine_returning true)
    true (operator_on float16 true 0)
  = (Normal true, [EvGetDeviceProperty 0; EvDoRunWithType fc_half]).
Proof. reflexivity. Qed.

Example forward_half_flag_rev5 :
  RunFullyConnectedOpOnCUDADevice (device_with_major 5) (routine_returning true)
    true (operator_on float16 true 0)
  = (Normal true,
     [EvGetDeviceProperty 0; EvLog INFO fallback_message;
      EvDoRunWithType fc_half_math_full]).
Proof. reflexivity. Qed.

Example forward_full_flag_rev5 :
  RunFullyConnectedOpOnCUDADevice (device_with_major 5) (routine_returning false)
    true (operator_on float true 0)
  = (Normal false, [EvDoRunWithType fc_full]).
Proof. reflexivity. Qed.

Example backward_double :
  RunFullyConnectedGradientOpOnCUDADevice (device_with_major 7)
    (routine_returning true) true (operator_on double true 0)
  = (Thrown "Unsupported type", []).
Proof. reflexivity. Qed.

(** ** Properties of the dispatch layer *)

Section Correctness.

Variable device_properties : Z -> cudaDeviceProp.
Variable fc_routine : FCTypes -> Operator -> Result.
Variable fc_gradient_routine : FCGradientTypes -> Operator -> Result.

Local Abbreviation Forward :=
  (RunFullyConnectedOpOnCUDADevice device_properties fc_routine).
Local Abbreviation Backward :=
  (RunFullyConnectedGradientOpOnCUDADevice device_properties
     fc_gradient_routine).

Lemma IsType_true (T : TypeMeta) (t : Tensor) :
  IsType T t = true <-> meta t = T.
Proof.
  unfold IsType. destruct (TypeMeta_eq_dec (meta t) T); split; congruence.
Qed.

Lemma IsType_false (T : TypeMeta) (t : Tensor) :
  IsType T t = false <-> meta t <> T.
Proof.
  unfold IsType. destruct (TypeMeta_eq_dec (meta t) T); split; congruence.
Qed.

Lemma IsType_float16_not_float (t : Tensor) :
  IsType float16 t = true -> IsType float t = false.
Proof.
  intros H. apply IsType_true in H. apply IsType_false. congruence.
Qed.

Lemma IsType_same_meta (T : TypeMeta) (t u : Tensor) :
  meta t = meta u -> IsType T t = IsType T u.
Proof. unfold IsType. intros ->. reflexivity. Qed.

(** *** The decision tables

    What each dispatcher does, as one equation: the completion is what the
    selected routine handed back, the trace lists the external calls. *)

Lemma Forward_table (f : bool) (op : Operator) :
  Forward f op =
  if IsType float (Input op 0) then
    (completion_of (fc_routine fc_full op), [EvDoRunWithType fc_full])
  else if IsType float16 (Input op 0) then
    if f then
      if major (device_properties 0) >=? kFp16CUDADevicePropMajor then
        (completion_of (fc_routine fc_half op),
         [EvGetDeviceProperty 0; EvDoRunWithType fc_half])
      else
        (completion_of (fc_routine fc_half_math_full op),
         [EvGetDeviceProperty 0; EvLog INFO fallback_message;
          EvDoRunWithType fc_half_math_full])
    else
      (completion_of (fc_routine fc_half_math_full op),
       [EvDoRunWithType fc_half_math_full])
  else (Thrown "Unsupported type", []).
Proof.
  unfold RunFullyConnectedOpOnCUDADevice,
    RunFullyConnectedOpOnCUDADevice_body, DoRunWithType.
  fold fc_full fc_half fc_half_math_full.
  destruct (IsType float (Input op 0)).
  - destruct (fc_routine fc_full op); reflexivity.
  - destruct (IsType float16 (Input op 0)); [ | reflexivity ].
    destruct f.
    + cbn. destruct (major (device_properties 0) >=? kFp16CUDADevicePropMajor).
      * destruct (fc_routine fc_half op); reflexivity.
      * destruct (fc_routine fc_half_math_full op); reflexivity.
    + destruct (fc_routine fc_half_math_full op); reflexivity.
Qed.

Lemma Backward_table (f : bool) (op : Operator) :
  Backward f op =
  if IsType float (Input op 0) then
    (completion_of (fc_gradient_routine fcg_full op),
     [EvGradientDoRunWithType fcg_full])
  else if IsType float16 (Input op 0) then
    if f then
      if major (device_properties 0) >=? kFp16CUDADevicePropMajor then
        (completion_of (fc_gradient_routine fcg_half op),
         [EvGetDeviceProperty 0; EvGradientDoRunWithType fcg_half])
      else
        (completion_of (fc_gradient_routine fcg_half_math_full op),
         [EvGetDeviceProperty 0; EvLog INFO fallback_message;
          EvGradientDoRunWithType fcg_half_math_full])
    else
      (completion_of (fc_gradient_routine fcg_half_math_full op),
       [EvGradientDoRunWithType fcg_half_math_full])
  else (Thrown "Unsupported type", []).
Proof.
  unfold RunFullyConnectedGradientOpOnCUDADevice,
    RunFullyConnectedGradientOpOnCUDADevice_body, GradientDoRunWithType.
  fold fcg_full fcg_half fcg_half_math_full.
  destruct (IsType float (Input op 0)).
  - destruct (fc_gradient_routine fcg_full op); reflexivity.
  - destruct (IsType float16 (Input op 0)); [ | reflexivity ].
    destruct f.
    + cbn. destruct (major (device_properties 0) >=? kFp16CUDADevicePropMajor).
      * destruct (fc_gradient_routine fcg_half op); reflexivity.
      * destruct (fc_gradient_routine fcg_half_math_full op); reflexivity.
    + destruct (fc_gradient_routine fcg_half_math_full op); reflexivity.
Qed.

Lemma below_threshold (m : Z) :
  m < kFp16CUDADevicePropMajor -> (m >=? kFp16CUDADevicePropMajor) = false.
Proof. intros H. rewrite Z.geb_leb. apply Z.leb_gt. exact H. Qed.

Lemma at_least_threshold (m : Z) :
  m >= kFp16CUDADevicePropMajor -> (m >=? kFp16CUDADevicePropMajor) = true.
Proof. intros H. rewrite Z.geb_leb. apply Z.leb_le. lia. Qed.

(** *** Calls that only forward a result *)

Lemma call_never_returns (body : Body) (b : bool) :
  fst (call body) <> Returned b.
Proof.
  destruct body as [[e | b' | m] t]; [ destruct e | | ]; discriminate.
Qed.

Lemma call_return_call (body : Body) :
  call (r <- call body ;; return_ r) = call body.
Proof.
  destruct body as [[e | b | m] t]; [ destruct e | | ];
    cbn; rewrite ?app_nil_r; reflexivity.
Qed.

(** Every [RunOnDevice] of the file is its dispatcher, called with the
    operator's own flag for the default engine and with [false] for the
    TensorCore engine. *)
Lemma RunOnDevice_dispatch (CUDA_VERSION : Z) (c : OperatorClass)
    (run : Operator -> Exec bool) :
  RunOnDevice device_properties fc_routine fc_gradient_routine
    CUDA_VERSION c = Some run ->
  forall this : Operator,
    run this =
    dispatcher_of device_properties fc_routine fc_gradient_routine c
      (match engine_of c with
       | DefaultEngine => float16_compute_ this
       | TensorCoreEngine => false
       end) this.
Proof.
  destruct c as [[ | ] [ | ] | [ | ] [ | ]]; cbn;
    try destruct (CUDA_VERSION >=? 9000); try discriminate;
    intros [= <-] this; apply call_return_call.
Qed.

(** *** Precision selection *)

(** C1: a half precision input with the flag set, on a device whose major
    revision is below [kFp16CUDADevicePropMajor], makes both dispatchers
    look up device 0, write exactly one [INFO] line, and only then invoke
    the instantiation with half precision data roles and full precision
    Math; the dispatch yields what that routine handed back. *)
Theorem half_with_flag_below_threshold_falls_back (op : Operator) :
  IsType float16 (Input op 0) = true ->
  major (device_properties 0) < kFp16CUDADevicePropMajor ->
  Forward true op =
    (completion_of (fc_routine fc_half_math_full op),
     [EvGetDeviceProperty 0; EvLog INFO fallback_message;
      EvDoRunWithType fc_half_math_full])
  /\ Backward true op =
    (completion_of (fc_gradient_routine fcg_half_math_full op),
     [EvGetDeviceProperty 0; EvLog INFO fallback_message;
      EvGradientDoRunWithType fcg_half_math_full]).
Proof.
  intros Hhalf Hlow.
  rewrite Forward_table, Backward_table.
  rewrite (IsType_float16_not_float _ Hhalf), Hhalf.
  rewrite (below_threshold _ Hlow).
  split; reflexivity.
Qed.

(** C2: a half precision input with the flag set, on a device whose major
    revision is at least [kFp16CUDADevicePropMajor] (which is 6), makes
    both dispatchers look up device 0 and invoke the instantiation that is
    half precision in every role, Math included; nothing is logged. *)
Theorem half_with_flag_at_threshold_runs_half (op : Operator) :
  IsType float16 (Input op 0) = true ->
  major (device_properties 0) >= kFp16CUDADevicePropMajor ->
  kFp16CUDADevicePropMajor = 6
  /\ Forward true op =
    (completion_of (fc_routine fc_half op),
     [EvGetDeviceProperty 0; EvDoRunWithType fc_half])
  /\ Backward true op =
    (completion_of (fc_gradient_routine fcg_half op),
     [EvGetDeviceProperty 0; EvGradientDoRunWithType fcg_half])
  /\ log_lines (snd (Forward true op)) = []
  /\ log_lines (snd (Backward true op)) = [].
Proof.
  intros Hhalf Hhigh.
  rewrite Forward_table, Backward_table.
  rewrite (IsType_float16_not_float _ Hhalf), Hhalf.
  rewrite (at_least_threshold _ Hhigh).
  repeat split; reflexivity.
Qed.

(** C3: a full precision input makes both dispatchers invoke the
    instantiation that is full precision in every role, whatever the flag
    and whatever the device table holds, without any device lookup; the
    same holds through every [RunOnDevice] of the file, whatever its
    engine. *)
Theorem full_input_runs_full (f : bool) (op : Operator) :
  IsType float (Input op 0) = true ->
  Forward f op =
    (completion_of (fc_routine fc_full op), [EvDoRunWithType fc_full])
  /\ Backward f op =
    (completion_of (fc_gradient_routine fcg_full op),
     [EvGradientDoRunWithType fcg_full])
  /\ device_queries (snd (Forward f op)) = []
  /\ device_queries (snd (Backward f op)) = []
  /\ forall (CUDA_VERSION : Z) (c : OperatorClass) run,
       RunOnDevice device_properties fc_routine fc_gradient_routine
         CUDA_VERSION c = Some run ->
       run op =
       if is_gradient c
       then (completion_of (fc_gradient_routine fcg_full op),
             [EvGradientDoRunWithType fcg_full])
       else (completion_of (fc_routine fc_full op),
             [EvDoRunWithType fc_full]).
Proof.
  intros Hfull.
  assert (HF : forall g, Forward g op =
    (completion_of (fc_routine fc_full op), [EvDoRunWithType fc_full])).
  { intros g. rewrite Forward_table, Hfull. reflexivity. }
  assert (HB : forall g, Backward g op =
    (completion_of (fc_gradient_routine fcg_full op),
     [EvGradientDoRunWithType fcg_full])).
  { intros g. rewrite Backward_table, Hfull. reflexivity. }
  rewrite HF, HB. repeat split.
  intros V c run Hrun.
  rewrite (RunOnDevice_dispatch V c run Hrun op).
  unfold dispatcher_of. destruct (is_gradient c); [ apply HB | apply HF ].
Qed.

(** C4: a half precision input with the flag cleared makes both
    dispatchers invoke the instantiation with half precision data roles and
    full precision Math, whatever the device table holds, and without any
    device lookup. *)
Theorem half_without_flag_accumulates_full (op : Operator) :
  IsType float16 (Input op 0) = true ->
  Forward false op =
    (completion_of (fc_routine fc_half_math_full op),
     [EvDoRunWithType fc_half_math_full])
  /\ Backward false op =
    (completion_of (fc_gradient_routine fcg_half_math_full op),
     [EvGradientDoRunWithType fcg_half_math_full])
  /\ device_queries (snd (Forward false op)) = []
  /\ device_queries (snd (Backward false op)) = [].
Proof.
  intros Hhalf.
  rewrite Forward_table, Backward_table.
  rewrite (IsType_float16_not_float _ Hhalf), Hhalf.
  repeat split; reflexivity.
Qed.

(** *** The TensorCore engine *)

(** C5: whenever the file registers a class under the [TENSORCORE] engine
    key, that class has a [RunOnDevice] here, and on every operator object
    it is the dispatcher of its direction called with [false], whatever
    [float16_compute_] holds; so it writes no log line and invokes no
    instantiation whose Math role is half precision. *)
Theorem tensorcore_entry_points_clear_the_flag
    (CUDA_VERSION : Z) (reg : Registration) :
  In reg (registrations CUDA_VERSION) ->
  reg_engine reg = Some "TENSORCORE" ->
  engine_of (reg_class reg) = TensorCoreEngine
  /\ exists run : Operator -> Exec bool,
       RunOnDevice device_properties fc_routine fc_gradient_routine
         CUDA_VERSION (reg_class reg) = Some run
       /\ forall this : Operator,
            run this =
              dispatcher_of device_properties fc_routine fc_gradient_routine
                (reg_class reg) false this
            /\ log_lines (snd (run this)) = []
            /\ Forall (fun e => math_of e <> Some float16) (snd (run this)).
Proof.
  intros Hin Hkey.
  assert (Hcases :
    (CUDA_VERSION >=? 9000) = true /\
    exists tw, reg_class reg = FullyConnectedOp TensorCoreEngine tw
            \/ reg_class reg = FullyConnectedGradientOp TensorCoreEngine tw).
  { unfold registrations in Hin. apply in_app_or in Hin.
    destruct Hin as [Hin | Hin].
    - cbn in Hin.
      destruct Hin as [<- | [<- | [<- | [<- | []]]]]; discriminate Hkey.
    - destruct (CUDA_VERSION >=? 9000); [ | destruct Hin ].
      split; [ reflexivity | ].
      cbn in Hin.
      destruct Hin as [<- | [<- | [<- | [<- | []]]]]; cbn; eauto. }
  destruct Hcases as [Hver [tw Hcls]].
  assert (Hrun : exists run,
    RunOnDevice device_properties fc_routine fc_gradient_routine
      CUDA_VERSION (reg_class reg) = Some run).
  { destruct Hcls as [-> | ->]; destruct tw; cbn; rewrite Hver; eauto. }
  assert (Heng : engine_of (reg_class reg) = TensorCoreEngine).
  { destruct Hcls as [-> | ->]; reflexivity. }
  split; [ exact Heng | ].
  destruct Hrun as [run Hrun]. exists run. split; [ exact Hrun | ].
  intros this.
  pose proof (RunOnDevice_dispatch CUDA_VERSION _ run Hrun this) as Heq.
  rewrite Heng in Heq. rewrite Heq. split; [ reflexivity | ].
  unfold dispatcher_of.
  destruct (is_gradient (reg_class reg));
    [ rewrite Backward_table | rewrite Forward_table ];
    destruct (IsType float (Input this 0));
    destruct (IsType float16 (Input this 0)); cbn;
    (split; [ reflexivity | ]);
    repeat constructor; cbn; discriminate.
Qed.

(** *** Unsupported element types *)

(** C6: when input 0 is neither [float] nor [float16], both dispatchers
    throw "Unsupported type" and do nothing else: the trace is empty, so
    no execution routine was invoked. *)
Theorem unsupported_type_throws (f : bool) (op : Operator) :
  IsType float (Input op 0) = false ->
  IsType float16 (Input op 0) = false ->
  Forward f op = (Thrown "Unsupported type", [])
  /\ Backward f op = (Thrown "Unsupported type", [])
  /\ List.length (invocations (snd (Forward f op))) = 0%nat
  /\ List.length (invocations (snd (Backward f op))) = 0%nat.
Proof.
  intros H32 H16.
  rewrite Forward_table, Backward_table, H32, H16.
  repeat split; reflexivity.
Qed.

(** *** Invariants of the selection *)

(** C7: in every instantiation either dispatcher invokes, for every input
    type, flag and device table, the Math type is not strictly narrower
    than every operand type: it is [float], or it equals every operand
    type. *)
Theorem math_never_below_operands (f : bool) (op : Operator) :
  Forall
    (fun e =>
       exists m : TypeMeta,
         math_of e = Some m
         /\ forallb (strictly_lower m) (operands_of e) = false
         /\ (m = float \/ Forall (eq m) (operands_of e)))
    (invocations (snd (Forward f op)) ++ invocations (snd (Backward f op))).
Proof.
  rewrite Forward_table, Backward_table.
  destruct (IsType float (Input op 0));
    [ | destruct (IsType float16 (Input op 0));
        [ destruct f;
          [ destruct (major (device_properties 0) >=? kFp16CUDADevicePropMajor)
          | ]
        | ] ];
    cbn; repeat constructor;
    eexists; (split; [ reflexivity | ]);
    (split; [ reflexivity | ]);
    first [ left; reflexivity | right; repeat constructor ].
Qed.

(** The branch a dispatcher took, from its inputs. *)
Lemma Forward_branch (f : bool) (op : Operator) :
  branch_of (Forward f op) =
  if IsType float (Input op 0) then Some Success
  else if IsType float16 (Input op 0) then
    if f && negb (major (device_properties 0) >=? kFp16CUDADevicePropMajor)
    then Some FallbackWithLog else Some Success
  else Some UnsupportedType.
Proof.
  rewrite Forward_table.
  destruct (IsType float (Input op 0)); [ reflexivity | ].
  destruct (IsType float16 (Input op 0)); [ | reflexivity ].
  destruct f; [ | reflexivity ].
  destruct (major (device_properties 0) >=? kFp16CUDADevicePropMajor);
    reflexivity.
Qed.

Lemma Backward_branch (f : bool) (op : Operator) :
  branch_of (Backward f op) =
  if IsType float (Input op 0) then Some Success
  else if IsType float16 (Input op 0) then
    if f && negb (major (device_properties 0) >=? kFp16CUDADevicePropMajor)
    then Some FallbackWithLog else Some Success
  else Some UnsupportedType.
Proof.
  rewrite Backward_table.
  destruct (IsType float (Input op 0)); [ reflexivity | ].
  destruct (IsType float16 (Input op 0)); [ | reflexivity ].
  destruct f; [ | reflexivity ].
  destruct (major (device_properties 0) >=? kFp16CUDADevicePropMajor);
    reflexivity.
Qed.

(** [branch_of] reports [UnsupportedType] exactly when the dispatcher
    threw its own exception without doing anything. *)
Lemma Forward_branch_unsupported (f : bool) (op : Operator) :
  branch_of (Forward f op) = Some UnsupportedType <->
  Forward f op = (Thrown "Unsupported type", []).
Proof.
  rewrite Forward_branch, Forward_table.
  destruct (IsType float (Input op 0)); [ split; discriminate | ].
  destruct (IsType float16 (Input op 0)); [ | split; reflexivity ].
  destruct f; [ | split; discriminate ].
  destruct (major (device_properties 0) >=? kFp16CUDADevicePropMajor);
    split; discriminate.
Qed.

Lemma Backward_branch_unsupported (f : bool) (op : Operator) :
  branch_of (Backward f op) = Some UnsupportedType <->
  Backward f op = (Thrown "Unsupported type", []).
Proof.
  rewrite Backward_branch, Backward_table.
  destruct (IsType float (Input op 0)); [ split; discriminate | ].
  destruct (IsType float16 (Input op 0)); [ | split; reflexivity ].
  destruct f; [ | split; discriminate ].
  destruct (major (device_properties 0) >=? kFp16CUDADevicePropMajor);
    split; discriminate.
Qed.

(** Whatever a dispatcher does is one of the three branches. *)
Lemma Forward_branch_defined (f : bool) (op : Operator) :
  exists br : Branch, branch_of (Forward f op) = Some br.
Proof.
  rewrite Forward_branch.
  destruct (IsType float (Input op 0)); [ eauto | ].
  destruct (IsType float16 (Input op 0)); [ | eauto ].
  destruct (f && negb (major (device_properties 0)
                       >=? kFp16CUDADevicePropMajor)); eauto.
Qed.

(** C8: a forward and a backward operator whose inputs 0 have the same
    element type, dispatched with the same flag over the same device
    table, invoke instantiations with the same X, W, B and Math types and
    take the same branch, which is one of the three: success, fallback
    with log, or unsupported type.  In the last one both throw
    "Unsupported type" with nothing done, and one throws it exactly when
    the other does.  They also make the same device lookups and write the
    same log lines. *)
Theorem forward_and_backward_agree (f : bool) (opF opB : Operator) :
  meta (Input opF 0) = meta (Input opB 0) ->
  map shared_roles (invocations (snd (Forward f opF)))
    = map shared_roles (invocations (snd (Backward f opB)))
  /\ branch_of (Forward f opF) = branch_of (Backward f opB)
  /\ device_queries (snd (Forward f opF))
     = device_queries (snd (Backward f opB))
  /\ log_lines (snd (Forward f opF)) = log_lines (snd (Backward f opB))
  /\ (exists br : Branch,
        branch_of (Forward f opF) = Some br
        /\ branch_of (Backward f opB) = Some br)
  /\ (Forward f opF = (Thrown "Unsupported type", [])
      <-> Backward f opB = (Thrown "Unsupported type", []))
  /\ (branch_of (Forward f opF) = Some UnsupportedType ->
      Forward f opF = (Thrown "Unsupported type", [])
      /\ Backward f opB = (Thrown "Unsupported type", [])).
Proof.
  intros Hmeta.
  assert (Hbranch : branch_of (Forward f opF) = branch_of (Backward f opB)).
  { rewrite Forward_branch, Backward_branch.
    rewrite (IsType_same_meta float _ _ Hmeta).
    rewrite (IsType_same_meta float16 _ _ Hmeta).
    reflexivity. }
  assert (Hdefined : exists br : Branch,
            branch_of (Forward f opF) = Some br
            /\ branch_of (Backward f opB) = Some br).
  { destruct (Forward_branch_defined f opF) as [br Hbr].
    exists br. split; [ exact Hbr | rewrite <- Hbranch; exact Hbr ]. }
  assert (Hthrow : Forward f opF = (Thrown "Unsupported type", [])
                   <-> Backward f opB = (Thrown "Unsupported type", [])).
  { rewrite <- Forward_branch_unsupported, <- Backward_branch_unsupported.
    rewrite Hbranch. reflexivity. }
  assert (Hboth : branch_of (Forward f opF) = Some UnsupportedType ->
            Forward f opF = (Thrown "Unsupported type", [])
            /\ Backward f opB = (Thrown "Unsupported type", [])).
  { intros Hun. split.
    - apply Forward_branch_unsupported. exact Hun.
    - apply Backward_branch_unsupported. rewrite <- Hbranch. exact Hun. }
  assert (Htraces :
    map shared_roles (invocations (snd (Forward f opF)))
      = map shared_roles (invocations (snd (Backward f opB)))
    /\ device_queries (snd (Forward f opF))
       = device_queries (snd (Backward f opB))
    /\ log_lines (snd (Forward f opF)) = log_lines (snd (Backward f opB))).
  { rewrite Forward_table, Backward_table.
    rewrite (IsType_same_meta float _ _ Hmeta).
    rewrite (IsType_same_meta float16 _ _ Hmeta).
    destruct (IsType float (Input opB 0));
      [ | destruct (IsType float16 (Input opB 0));
          [ destruct f;
            [ destruct (major (device_properties 0)
                        >=? kFp16CUDADevicePropMajor)
            | ]
          | ] ];
      repeat split; reflexivity. }
  destruct Htraces as [Hroles [Hqueries Hlogs]].
  exact (conj Hroles (conj Hbranch (conj Hqueries (conj Hlogs
           (conj Hdefined (conj Hthrow Hboth)))))).
Qed.

(** *** Invocation of the execution routine *)

(** C9: when input 0 is [float] or [float16], each dispatcher invokes
    exactly one instantiation of its execution routine, and the dispatch
    completes with what that routine handed back: its [bool] unchanged, or
    its exception. *)
Theorem supported_dispatch_runs_one_routine (f : bool) (op : Operator) :
  IsType float (Input op 0) = true \/ IsType float16 (Input op 0) = true ->
  (exists T tr,
     Forward f op = (completion_of (fc_routine T op), tr)
     /\ invocations tr = [EvDoRunWithType T])
  /\ (exists T tr,
       Backward f op = (completion_of (fc_gradient_routine T op), tr)
       /\ invocations tr = [EvGradientDoRunWithType T]).
Proof.
  intros Hsup.
  rewrite Forward_table, Backward_table.
  destruct (IsType float (Input op 0)).
  - split; eexists; eexists; split; reflexivity.
  - destruct Hsup as [Hsup | Hsup]; [ discriminate | rewrite Hsup ].
    destruct f;
      [ destruct (major (device_properties 0) >=? kFp16CUDADevicePropMajor)
      | ];
      split; eexists; eexists; split; reflexivity.
Qed.

(** The same fact read from the result: a dispatch that completes with a
    value invoked one routine, and the value is that routine's. *)
Lemma Forward_value_is_routine_value
    (f : bool) (op : Operator) (b : bool) (tr : list Event) :
  Forward f op = (Normal b, tr) ->
  exists T, invocations tr = [EvDoRunWithType T] /\ fc_routine T op = Ok b.
Proof.
  rewrite Forward_table.
  assert (Hc : forall r, completion_of r = Normal b -> r = Ok b).
  { intros [b' | m]; cbn; congruence. }
  destruct (IsType float (Input op 0));
    [ | destruct (IsType float16 (Input op 0));
        [ destruct f;
          [ destruct (major (device_properties 0) >=? kFp16CUDADevicePropMajor)
          | ]
        | ] ];
    intros [= Hres <-]; apply Hc in Hres;
    eexists; (split; [ reflexivity | exact Hres ]).
Qed.

(** *** Device lookups *)

(** C10: every device lookup either dispatcher makes is a lookup of
    device 0, whatever device the operator's context was created for. *)
Theorem device_lookups_use_index_zero
    (f : bool) (inputs : nat -> Tensor) (flag : bool) (gpu : Z) :
  let op := {| Input := inputs; float16_compute_ := flag;
               cuda_gpu_id := gpu |} in
  Forall (fun e => e = EvGetDeviceProperty 0)
    (device_queries (snd (Forward f op))
     ++ device_queries (snd (Backward f op))).
Proof.
  intros op.
  rewrite Forward_table, Backward_table.
  destruct (IsType float (Input op 0));
    [ | destruct (IsType float16 (Input op 0));
        [ destruct f;
          [ destruct (major (device_properties 0) >=? kFp16CUDADevicePropMajor)
          | ]
        | ] ];
    cbn; repeat constructor.
Qed.

End Correctness.

(** ** The theorems at concrete inputs *)

Lemma half_with_flag_below_threshold_falls_back_witness :
  IsType float16 (Input (operator_on float16 true 1) 0) = true
  /\ major (device_with_major 5 0) < kFp16CUDADevicePropMajor
  /\ RunFullyConnectedOpOnCUDADevice (device_with_major 5)
       (routine_returning true) true (operator_on float16 true 1)
     = (Normal true,
        [EvGetDeviceProperty 0; EvLog INFO fallback_message;
         EvDoRunWithType fc_half_math_full])
  /\ RunFullyConnectedGradientOpOnCUDADevice (device_with_major 5)
       (routine_returning false) true (operator_on float16 true 1)
     = (Normal false,
        [EvGetDeviceProperty 0; EvLog INFO fallback_message;
         EvGradientDoRunWithType fcg_half_math_full]).
Proof.
  split; [ reflexivity | split; [ reflexivity | ] ].
  apply (half_with_flag_below_threshold_falls_back (device_with_major 5)
           (routine_returning true) (routine_returning false)
           (operator_on float16 true 1));
    reflexivity.
Defined.

Lemma half_with_flag_at_threshold_runs_half_witness :
  IsType float16 (Input (operator_on float16 true 0) 0) = true
  /\ major (device_with_major 7 0) >= kFp16CUDADevicePropMajor
  /\ kFp16CUDADevicePropMajor = 6
  /\ RunFullyConnectedOpOnCUDADevice (device_with_major 7)
       (routine_returning true) true (operator_on float16 true 0)
     = (Normal true, [EvGetDeviceProperty 0; EvDoRunWithType fc_half])
  /\ RunFullyConnectedGradientOpOnCUDADevice (device_with_major 7)
       (routine_returning true) true (operator_on float16 true 0)
     = (Normal true, [EvGetDeviceProperty 0; EvGradientDoRunWithType fcg_half])
  /\ log_lines (snd (RunFullyConnectedOpOnCUDADevice (device_with_major 7)
       (routine_returning true) true (operator_on float16 true 0))) = []
  /\ log_lines (snd (RunFullyConnectedGradientOpOnCUDADevice
       (device_with_major 7) (routine_returning true) true
       (operator_on float16 true 0))) = [].
Proof.
  split; [ reflexivity | split; [ cbn; discriminate | ] ].
  apply (half_with_flag_at_threshold_runs_half (device_with_major 7)
           (routine_returning true) (routine_returning true)
           (operator_on float16 true 0));
    [ reflexivity | cbn; discriminate ].
Defined.

Lemma full_input_runs_full_witness :
  IsType float (Input (operator_on float true 0) 0) = true
  /\ RunFullyConnectedOpOnCUDADevice (device_with_major 5)
       (routine_returning false) true (operator_on float true 0)
     = (Normal false, [EvDoRunWithType fc_full])
  /\ RunFullyConnectedGradientOpOnCUDADevice (device_with_major 5)
       (routine_returning true) true (operator_on float true 0)
     = (Normal true, [EvGradientDoRunWithType fcg_full]).
Proof.
  split; [ reflexivity | ].
  pose proof (full_input_runs_full (device_with_major 5)
                (routine_returning false) (routine_returning true)
                true (operator_on float true 0) eq_refl) as H.
  split; [ exact (proj1 H) | exact (proj1 (proj2 H)) ].
Defined.

Lemma half_without_flag_accumulates_full_witness :
  IsType float16 (Input (operator_on float16 false 0) 0) = true
  /\ RunFullyConnectedOpOnCUDADevice (device_with_major 7)
       (routine_returning true) false (operator_on float16 false 0)
     = (Normal true, [EvDoRunWithType fc_half_math_full])
  /\ RunFullyConnectedGradientOpOnCUDADevice (device_with_major 7)
       (routine_returning true) false (operator_on float16 false 0)
     = (Normal true, [EvGradientDoRunWithType fcg_half_math_full])
  /\ device_queries (snd (RunFullyConnectedOpOnCUDADevice
       (device_with_major 7) (routine_returning true) false
       (operator_on float16 false 0))) = []
  /\ device_queries (snd (RunFullyConnectedGradientOpOnCUDADevice
       (device_with_major 7) (routine_returning true) false
       (operator_on float16 false 0))) = [].
Proof.
  split; [ reflexivity | ].
  apply (half_without_flag_accumulates_full (device_with_major 7)
           (routine_returning true) (routine_returning true)
           (operator_on float16 false 0)).
  reflexivity.
Defined.

Lemma tensorcore_entry_points_clear_the_flag_witness :
  In tensorcore_fc_registration (registrations 9000)
  /\ reg_engine tensorcore_fc_registration = Some "TENSORCORE"
  /\ engine_of (reg_class tensorcore_fc_registration) = TensorCoreEngine
  /\ exists run : Operator -> Exec bool,
       RunOnDevice (device_with_major 7) (routine_returning true)
         (routine_returning true) 9000
         (reg_class tensorcore_fc_registration) = Some run
       /\ forall this : Operator,
            run this =
              dispatcher_of (device_with_major 7) (routine_returning true)
                (routine_returning true)
                (reg_class tensorcore_fc_registration) false this
            /\ log_lines (snd (run this)) = []
            /\ Forall (fun e => math_of e <> Some float16) (snd (run this)).
Proof.
  assert (Hin : In tensorcore_fc_registration (registrations 9000)).
  { cbn. right. right. right. right. left. reflexivity. }
  split; [ exact Hin | split; [ reflexivity | ] ].
  exact (tensorcore_entry_points_clear_the_flag (device_with_major 7)
           (routine_returning true) (routine_returning true)
           9000 tensorcore_fc_registration Hin eq_refl).
Defined.

Lemma unsupported_type_throws_witness :
  IsType float (Input (operator_on double true 0) 0) = false
  /\ IsType float16 (Input (operator_on double true 0) 0) = false
  /\ RunFullyConnectedOpOnCUDADevice (device_with_major 7)
       (routine_returning true) true (operator_on double true 0)
     = (Thrown "Unsupported type", [])
  /\ RunFullyConnectedGradientOpOnCUDADevice (device_with_major 7)
       (routine_returning true) true (operator_on double true 0)
     = (Thrown "Unsupported type", [])
  /\ List.length (invocations (snd (RunFullyConnectedOpOnCUDADevice
       (device_with_major 7) (routine_returning true) true
       (operator_on double true 0)))) = 0%nat
  /\ List.length (invocations (snd (RunFullyConnectedGradientOpOnCUDADevice
       (device_with_major 7) (routine_returning true) true
       (operator_on double true 0)))) = 0%nat.
Proof.
  split; [ reflexivity | split; [ reflexivity | ] ].
  apply (unsupported_type_throws (device_with_major 7)
           (routine_returning true) (routine_returning true)
           true (operator_on double true 0));
    reflexivity.
Defined.

Lemma forward_and_backward_agree_witness :
  meta (Input (operator_on float16 true 0) 0)
    = meta (Input (operator_on float16 false 2) 0)
  /\ map shared_roles
       (invocations (snd (RunFullyConnectedOpOnCUDADevice
          (device_with_major 5) (routine_returning true) true
          (operator_on float16 true 0))))
     = [Some (float16, float16, float16, float)]
  /\ map shared_roles
       (invocations (snd (RunFullyConnectedGradientOpOnCUDADevice
          (device_with_major 5) (routine_returning false) true
          (operator_on float16 false 2))))
     = [Some (float16, float16, float16, float)]
  /\ branch_of (RunFullyConnectedGradientOpOnCUDADevice
       (device_with_major 5) (routine_returning false) true
       (operator_on float16 false 2)) = Some FallbackWithLog.
Proof.
  pose proof (forward_and_backward_agree (device_with_major 5)
                (routine_returning true) (routine_returning false)
                true (operator_on float16 true 0)
                (operator_on float16 false 2) eq_refl) as H.
  destruct H as [Hroles [Hbranch _]].
  split; [ reflexivity | split; [ reflexivity | ] ].
  split; [ rewrite <- Hroles; reflexivity
         | rewrite <- Hbranch; reflexivity ].
Defined.

Lemma supported_dispatch_runs_one_routine_witness :
  (IsType float (Input (operator_on float16 true 0) 0) = true
   \/ IsType float16 (Input (operator_on float16 true 0) 0) = true)
  /\ (exists T tr,
        RunFullyConnectedOpOnCUDADevice (device_with_major 7)
          (routine_returning false) true (operator_on float16 true 0)
        = (completion_of
             (routine_returning false T (operator_on float16 true 0)), tr)
        /\ invocations tr = [EvDoRunWithType T])
  /\ (exists T tr,
        RunFullyConnectedGradientOpOnCUDADevice (device_with_major 7)
          (routine_returning true) true (operator_on float16 true 0)
        = (completion_of
             (routine_returning true T (operator_on float16 true 0)), tr)
        /\ invocations tr = [EvGradientDoRunWithType T]).
Proof.
  assert (Hsup :
    IsType float (Input (operator_on float16 true 0) 0) = true
    \/ IsType float16 (Input (operator_on float16 true 0) 0) = true).
  { right. reflexivity. }
  split; [ exact Hsup | ].
  exact (supported_dispatch_runs_one_routine (device_with_major 7)
           (routine_returning false) (routine_returning true)
           true (operator_on float16 true 0) Hsup).
Defined.

(** An operator whose context sits on device 3 still has device 0 looked
    up. *)
Example lookup_on_device_three :
  device_queries
    (snd (RunFullyConnectedOpOnCUDADevice (device_with_major 7)
            (routine_returning true) true (operator_on float16 true 3)))
  = [EvGetDeviceProperty 0]
  /\ cuda_gpu_id (operator_on float16 true 3) = 3.
Proof. split; reflexivity. Qed.

(** On an unsupported input both dispatchers are in the unsupported-type
    branch; an outcome that did nothing and returned normally is in none. *)
Example unsupported_branch_on_double :
  branch_of (RunFullyConnectedOpOnCUDADevice (device_with_major 7)
               (routine_returning true) true (operator_on double true 0))
  = Some UnsupportedType
  /\ branch_of (RunFullyConnectedGradientOpOnCUDADevice (device_with_major 7)
                  (routine_returning true) true (operator_on double true 0))
     = Some UnsupportedType
  /\ branch_of ((Normal false, []) : Exec bool) = None
  /\ branch_of ((Thrown "out of memory", []) : Exec bool) = None.
Proof. repeat split; reflexivity. Qed.

(** ** Further properties: entry points, registrations, and what a
    dispatch depends on *)

Section Coverage.

Variable device_properties : Z -> cudaDeviceProp.
Variable fc_routine : FCTypes -> Operator -> Result.
Variable fc_gradient_routine : FCGradientTypes -> Operator -> Result.

Local Abbreviation Forward :=
  (RunFullyConnectedOpOnCUDADevice device_properties fc_routine).
Local Abbreviation Backward :=
  (RunFullyConnectedGradientOpOnCUDADevice device_properties
     fc_gradient_routine).
Local Abbreviation Entry :=
  (RunOnDevice device_properties fc_routine fc_gradient_routine).
Local Abbreviation Dispatcher :=
  (dispatcher_of device_properties fc_routine fc_gradient_routine).

(** The decision table of either dispatcher, through [dispatcher_of]. *)
Lemma Dispatcher_table (c : OperatorClass) (f : bool) (op : Operator) :
  Dispatcher c f op =
  if is_gradient c
  then Backward f op
  else Forward f op.
Proof. unfold dispatcher_of. destruct (is_gradient c); reflexivity. Qed.

Lemma Backward_value_is_routine_value
    (f : bool) (op : Operator) (b : bool) (tr : list Event) :
  Backward f op = (Normal b, tr) ->
  exists T, invocations tr = [EvGradientDoRunWithType T]
            /\ fc_gradient_routine T op = Ok b.
Proof.
  rewrite Backward_table.
  assert (Hc : forall r, completion_of r = Normal b -> r = Ok b).
  { intros [b' | m]; cbn; congruence. }
  destruct (IsType float (Input op 0));
    [ | destruct (IsType float16 (Input op 0));
        [ destruct f;
          [ destruct (major (device_properties 0) >=? kFp16CUDADevicePropMajor)
          | ]
        | ] ];
    intros [= Hres <-]; apply Hc in Hres;
    eexists; (split; [ reflexivity | exact Hres ]).
Qed.

(** *** The default-engine entry points *)

(** X1: every class of the default engine, forward or gradient, with or
    without [TransposeWeight], has a [RunOnDevice] in this file for every
    [CUDA_VERSION], and it is the dispatcher of its direction called with
    the operator's own [float16_compute_]. *)
Theorem default_entry_points_pass_own_flag
    (CUDA_VERSION : Z) (c : OperatorClass) :
  engine_of c = DefaultEngine ->
  exists run : Operator -> Exec bool,
    Entry CUDA_VERSION c = Some run
    /\ forall this : Operator,
         run this = Dispatcher c (float16_compute_ this) this.
Proof.
  intros Heng.
  assert (Hrun : exists run, Entry CUDA_VERSION c = Some run).
  { destruct c as [e tw | e tw]; cbn in Heng; subst e; destruct tw; cbn;
      eauto. }
  destruct Hrun as [run Hrun]. exists run. split; [ exact Hrun | ].
  intros this.
  rewrite (RunOnDevice_dispatch _ _ _ CUDA_VERSION c run Hrun this), Heng.
  reflexivity.
Qed.

(** *** All entry points *)

(** X2: through any [RunOnDevice] of the file, of either engine, an
    operator whose input 0 is neither [float] nor [float16] throws
    "Unsupported type" before anything else happens. *)
Theorem entry_points_reject_other_types
    (CUDA_VERSION : Z) (c : OperatorClass) (run : Operator -> Exec bool)
    (this : Operator) :
  Entry CUDA_VERSION c = Some run ->
  IsType float (Input this 0) = false ->
  IsType float16 (Input this 0) = false ->
  run this = (Thrown "Unsupported type", []).
Proof.
  intros Hrun H32 H16.
  rewrite (RunOnDevice_dispatch _ _ _ CUDA_VERSION c run Hrun this).
  rewrite Dispatcher_table, Forward_table, Backward_table, H32, H16.
  destruct (is_gradient c); reflexivity.
Qed.

(** X3: when a [RunOnDevice] of the file completes with a value, exactly
    one execution routine was invoked, it is the routine of the class's
    direction, and the value is the one that routine returned; so [false]
    comes back only when the routine returned [false]. *)
Theorem entry_point_value_is_routine_value
    (CUDA_VERSION : Z) (c : OperatorClass) (run : Operator -> Exec bool)
    (this : Operator) (b : bool) (tr : list Event) :
  Entry CUDA_VERSION c = Some run ->
  run this = (Normal b, tr) ->
  exists e : Event,
    invocations tr = [e]
    /\ is_gradient_run e = is_gradient c
    /\ routine_result fc_routine fc_gradient_routine this e = Some (Ok b).
Proof.
  intros Hrun.
  rewrite (RunOnDevice_dispatch _ _ _ CUDA_VERSION c run Hrun this).
  rewrite Dispatcher_table.
  destruct (is_gradient c); intros Hval.
  - destruct (Backward_value_is_routine_value _ _ _ _ Hval) as [T [Hinv Hres]].
    exists (EvGradientDoRunWithType T). cbn. rewrite Hres. auto.
  - destruct (Forward_value_is_routine_value _ _ _ _ _ _ Hval)
      as [T [Hinv Hres]].
    exists (EvDoRunWithType T). cbn. rewrite Hres. auto.
Qed.

(** X4: a [RunOnDevice] of a TensorCore class never looks up a device, and
    on a [float16] input it invokes the instantiation with [float] Math
    and nothing else, whatever [float16_compute_] and the device table
    hold. *)
Theorem tensorcore_entry_points_never_look_up_device
    (CUDA_VERSION : Z) (c : OperatorClass) (run : Operator -> Exec bool)
    (this : Operator) :
  Entry CUDA_VERSION c = Some run ->
  engine_of c = TensorCoreEngine ->
  device_queries (snd (run this)) = []
  /\ (IsType float16 (Input this 0) = true ->
      snd (run this) =
      [if is_gradient c
       then EvGradientDoRunWithType fcg_half_math_full
       else EvDoRunWithType fc_half_math_full]).
Proof.
  intros Hrun Heng.
  rewrite (RunOnDevice_dispatch _ _ _ CUDA_VERSION c run Hrun this), Heng.
  rewrite Dispatcher_table, Forward_table, Backward_table.
  split.
  - destruct (is_gradient c);
      destruct (IsType float (Input this 0));
      destruct (IsType float16 (Input this 0)); reflexivity.
  - intros Hhalf. rewrite (IsType_float16_not_float _ Hhalf), Hhalf.
    destruct (is_gradient c); reflexivity.
Qed.

(** *** Registrations *)

(** X5: for every [CUDA_VERSION], the classes that have a [RunOnDevice]
    in this file are exactly the classes the file registers; the only
    classes without one are the TensorCore classes when
    [CUDA_VERSION < 9000]. *)
Theorem specialised_exactly_when_registered
    (CUDA_VERSION : Z) (c : OperatorClass) :
  ((exists run, Entry CUDA_VERSION c = Some run)
   <-> (exists reg, In reg (registrations CUDA_VERSION) /\ reg_class reg = c))
  /\ (Entry CUDA_VERSION c = None
      <-> engine_of c = TensorCoreEngine /\ CUDA_VERSION < 9000).
Proof.
  assert (Hver : (CUDA_VERSION >=? 9000) = true /\ CUDA_VERSION >= 9000
              \/ (CUDA_VERSION >=? 9000) = false /\ CUDA_VERSION < 9000).
  { destruct (CUDA_VERSION >=? 9000) eqn:E; rewrite Z.geb_leb in E.
    - left. apply Z.leb_le in E. split; [ reflexivity | lia ].
    - right. apply Z.leb_gt in E. split; [ reflexivity | lia ]. }
  split; [ split | split ].
  - intros _Hrun.
    exists {| reg_name := operator_name c;
              reg_engine := engine_key (engine_of c);
              reg_class := c |}.
    split; [ | reflexivity ].
    destruct _Hrun as [run Hrun]. revert Hrun.
    unfold registrations.
    destruct Hver as [[E _] | [E _]]; rewrite E;
      destruct c as [[ | ] [ | ] | [ | ] [ | ]]; cbn; rewrite ?E;
      intros Hrun; try discriminate Hrun;
      repeat (first [ left; reflexivity | right ]).
  - intros [reg [Hin <-]]. revert Hin. unfold registrations.
    destruct Hver as [[E _] | [E _]]; rewrite E; cbn;
      intros Hin;
      repeat (destruct Hin as [<- | Hin]; [ cbn; rewrite ?E; eauto | ]);
      destruct Hin.
  - destruct Hver as [[E Hge] | [E Hlt]];
      destruct c as [[ | ] [ | ] | [ | ] [ | ]]; cbn; rewrite ?E;
      intros Hnone; try discriminate Hnone;
      (split; [ reflexivity | lia ]).
  - intros [Heng Hlt].
    destruct Hver as [[E Hge] | [E _]]; [ lia | ].
    destruct c as [[ | ] [ | ] | [ | ] [ | ]]; cbn in Heng;
      try discriminate Heng; cbn; rewrite E; reflexivity.
Qed.

(** X6: no two registrations of the file share both operator name and
    engine key, for every [CUDA_VERSION]. *)
Theorem registration_keys_are_distinct (CUDA_VERSION : Z) :
  NoDup (map registry_key (registrations CUDA_VERSION)).
Proof.
  unfold registrations.
  destruct (CUDA_VERSION >=? 9000); cbn;
    repeat (constructor; [ cbn; intuition discriminate | ]);
    constructor.
Qed.

(** X7: every registration follows one scheme: the name is "FC", with
    "Transposed" exactly for the classes whose [TransposeWeight] is false
    and "Gradient" exactly for the gradient classes, and the engine key is
    "TENSORCORE" for the TensorCore classes and absent for the default
    ones. *)
Theorem registrations_follow_naming_scheme
    (CUDA_VERSION : Z) (reg : Registration) :
  In reg (registrations CUDA_VERSION) ->
  reg_name reg = operator_name (reg_class reg)
  /\ reg_engine reg = engine_key (engine_of (reg_class reg)).
Proof.
  unfold registrations.
  destruct (CUDA_VERSION >=? 9000); cbn; intros Hin;
    repeat (destruct Hin as [<- | Hin]; [ split; reflexivity | ]);
    destruct Hin.
Qed.

(** X8: every forward class the file registers has its gradient class
    (same engine, same [TransposeWeight]) registered too, under the same
    engine key and under the forward name followed by "Gradient". *)
Theorem forward_registration_has_gradient_registration
    (CUDA_VERSION : Z) (reg : Registration) :
  In reg (registrations CUDA_VERSION) ->
  is_gradient (reg_class reg) = false ->
  In {| reg_name := String.append (reg_name reg) "Gradient";
        reg_engine := reg_engine reg;
        reg_class := gradient_class (reg_class reg) |}
     (registrations CUDA_VERSION).
Proof.
  unfold registrations.
  destruct (CUDA_VERSION >=? 9000); cbn; intros Hin Hfwd;
    repeat (destruct Hin as [<- | Hin];
            [ try discriminate Hfwd; cbn;
              repeat (first [ left; reflexivity | right ])
            | ]);
    destruct Hin.
Qed.

(** *** What a dispatch does and what it depends on *)

Lemma IsType_float_not_float16 (t : Tensor) :
  IsType float t = true -> IsType float16 t = false.
Proof.
  intros H. apply IsType_true in H. apply IsType_false. congruence.
Qed.

(** X9: a dispatcher looks up the device exactly when input 0 is
    [float16] and the flag is set, and then once; in every other case,
    the unsupported ones included, it makes no lookup. *)
Theorem device_lookup_exactly_when_needed (f : bool) (op : Operator) :
  device_queries (snd (Forward f op))
    = (if IsType float16 (Input op 0) && f
       then [EvGetDeviceProperty 0] else [])
  /\ device_queries (snd (Backward f op))
    = (if IsType float16 (Input op 0) && f
       then [EvGetDeviceProperty 0] else []).
Proof.
  rewrite Forward_table, Backward_table.
  destruct (IsType float (Input op 0)) eqn:H32.
  - rewrite (IsType_float_not_float16 _ H32). split; reflexivity.
  - destruct (IsType float16 (Input op 0)); [ | split; reflexivity ].
    destruct f; [ | split; reflexivity ].
    destruct (major (device_properties 0) >=? kFp16CUDADevicePropMajor);
      split; reflexivity.
Qed.

(** X10: the only thing a dispatcher ever logs is the fallback message at
    severity [INFO], once, and it does so exactly when input 0 is
    [float16], the flag is set and the major revision of device 0 is not
    at least [kFp16CUDADevicePropMajor]. *)
Theorem fallback_logged_exactly_when_needed (f : bool) (op : Operator) :
  log_lines (snd (Forward f op))
    = (if IsType float16 (Input op 0) && f
          && negb (major (device_properties 0) >=? kFp16CUDADevicePropMajor)
       then [EvLog INFO fallback_message] else [])
  /\ log_lines (snd (Backward f op))
    = (if IsType float16 (Input op 0) && f
          && negb (major (device_properties 0) >=? kFp16CUDADevicePropMajor)
       then [EvLog INFO fallback_message] else []).
Proof.
  rewrite Forward_table, Backward_table.
  destruct (IsType float (Input op 0)) eqn:H32.
  - rewrite (IsType_float_not_float16 _ H32). split; reflexivity.
  - destruct (IsType float16 (Input op 0)); [ | split; reflexivity ].
    destruct f; [ | split; reflexivity ].
    destruct (major (device_properties 0) >=? kFp16CUDADevicePropMajor);
      split; reflexivity.
Qed.

(** X11: the flag changes the instantiation that is invoked only for a
    [float16] input on a device 0 of major revision at least
    [kFp16CUDADevicePropMajor]: for any other input type, or below that
    revision, both values of the flag invoke the same instantiation. *)
Theorem flag_matters_only_for_half_on_capable_device
    (f g : bool) (op : Operator) :
  IsType float16 (Input op 0) = false
  \/ major (device_properties 0) < kFp16CUDADevicePropMajor ->
  invocations (snd (Forward f op)) = invocations (snd (Forward g op))
  /\ invocations (snd (Backward f op)) = invocations (snd (Backward g op)).
Proof.
  intros Hcase.
  rewrite !Forward_table, !Backward_table.
  destruct (IsType float (Input op 0)); [ split; reflexivity | ].
  destruct Hcase as [H16 | Hlow].
  - rewrite H16. split; reflexivity.
  - rewrite (below_threshold _ Hlow).
    destruct (IsType float16 (Input op 0)); [ | split; reflexivity ].
    destruct f, g; split; reflexivity.
Qed.

(** X12: of the operator, a dispatcher reads only the element type of
    input 0: two operators that agree on it make the same external calls
    in the same order, whatever their other inputs, their own
    [float16_compute_] and their device. *)
Theorem dispatch_reads_only_input0_type (f : bool) (opA opB : Operator) :
  meta (Input opA 0) = meta (Input opB 0) ->
  snd (Forward f opA) = snd (Forward f opB)
  /\ snd (Backward f opA) = snd (Backward f opB).
Proof.
  intros Hmeta.
  rewrite !Forward_table, !Backward_table.
  rewrite (IsType_same_meta float _ _ Hmeta).
  rewrite (IsType_same_meta float16 _ _ Hmeta).
  destruct (IsType float (Input opB 0)); [ split; reflexivity | ].
  destruct (IsType float16 (Input opB 0)); [ | split; reflexivity ].
  destruct f; [ | split; reflexivity ].
  destruct (major (device_properties 0) >=? kFp16CUDADevicePropMajor);
    split; reflexivity.
Qed.

(** X13: of the device table, a dispatcher uses only whether the major
    revision of device 0 is at least [kFp16CUDADevicePropMajor]: two
    tables that agree on that lead to the same external calls, whatever
    they hold for the other devices. *)
Theorem only_device_zero_threshold_matters
    (other_properties : Z -> cudaDeviceProp) (f : bool) (op : Operator) :
  (major (device_properties 0) >=? kFp16CUDADevicePropMajor)
    = (major (other_properties 0) >=? kFp16CUDADevicePropMajor) ->
  snd (Forward f op)
    = snd (RunFullyConnectedOpOnCUDADevice other_properties fc_routine f op)
  /\ snd (Backward f op)
    = snd (RunFullyConnectedGradientOpOnCUDADevice other_properties
             fc_gradient_routine f op).
Proof.
  intros Hsame.
  rewrite !Forward_table, !Backward_table, Hsame.
  destruct (IsType float (Input op 0)); [ split; reflexivity | ].
  destruct (IsType float16 (Input op 0)); [ | split; reflexivity ].
  destruct f; [ | split; reflexivity ].
  destruct (major (other_properties 0) >=? kFp16CUDADevicePropMajor);
    split; reflexivity.
Qed.

End Coverage.

(** ** The further properties at concrete inputs *)

Lemma default_entry_points_pass_own_flag_witness :
  engine_of (FullyConnectedGradientOp DefaultEngine false) = DefaultEngine
  /\ exists run : Operator -> Exec bool,
       RunOnDevice (device_with_major 7) (routine_returning true)
         (routine_returning true) 8000
         (FullyConnectedGradientOp DefaultEngine false) = Some run
       /\ forall this : Operator,
            run this =
            dispatcher_of (device_with_major 7) (routine_returning true)
              (routine_returning true)
              (FullyConnectedGradientOp DefaultEngine false)
              (float16_compute_ this) this.
Proof.
  split; [ reflexivity | ].
  exact (default_entry_points_pass_own_flag (device_with_major 7)
           (routine_returning true) (routine_returning true) 8000
           (FullyConnectedGradientOp DefaultEngine false) eq_refl).
Defined.

Lemma entry_points_reject_other_types_witness :
  RunOnDevice (device_with_major 7) (routine_returning true)
    (routine_returning true) 9000 (FullyConnectedOp TensorCoreEngine false)
  = Some (FullyConnectedOp_CUDAContext_TensorCoreEngine_false_RunOnDevice
            (device_with_major 7) (routine_returning true))
  /\ IsType float (Input (operator_on int32_t true 0) 0) = false
  /\ IsType float16 (Input (operator_on int32_t true 0) 0) = false
  /\ FullyConnectedOp_CUDAContext_TensorCoreEngine_false_RunOnDevice
       (device_with_major 7) (routine_returning true)
       (operator_on int32_t true 0)
     = (Thrown "Unsupported type", []).
Proof.
  split; [ reflexivity | split; [ reflexivity | split; [ reflexivity | ] ] ].
  exact (entry_points_reject_other_types (device_with_major 7)
           (routine_returning true) (routine_returning true) 9000
           (FullyConnectedOp TensorCoreEngine false) _
           (operator_on int32_t true 0) eq_refl eq_refl eq_refl).
Defined.

Lemma entry_point_value_is_routine_value_witness :
  RunOnDevice (device_with_major 5) (routine_returning true)
    (routine_returning false) 8000 (FullyConnectedGradientOp DefaultEngine true)
  = Some (FullyConnectedGradientOp_CUDAContext_RunOnDevice
            (device_with_major 5) (routine_returning false))
  /\ FullyConnectedGradientOp_CUDAContext_RunOnDevice
       (device_with_major 5) (routine_returning false)
       (operator_on float16 true 0)
     = (Normal false,
        [EvGetDeviceProperty 0; EvLog INFO fallback_message;
         EvGradientDoRunWithType fcg_half_math_full])
  /\ exists e : Event,
       invocations
         [EvGetDeviceProperty 0; EvLog INFO fallback_message;
          EvGradientDoRunWithType fcg_half_math_full] = [e]
       /\ is_gradient_run e
          = is_gradient (FullyConnectedGradientOp DefaultEngine true)
       /\ routine_result (routine_returning true) (routine_returning false)
            (operator_on float16 true 0) e = Some (Ok false).
Proof.
  split; [ reflexivity | split; [ reflexivity | ] ].
  exact (entry_point_value_is_routine_value (device_with_major 5)
           (routine_returning true) (routine_returning false) 8000
           (FullyConnectedGradientOp DefaultEngine true) _
           (operator_on float16 true 0) false _ eq_refl eq_refl).
Defined.

Lemma tensorcore_entry_points_never_look_up_device_witness :
  RunOnDevice (device_with_major 7) (routine_returning true)
    (routine_returning true) 9000 (FullyConnectedOp TensorCoreEngine true)
  = Some (FullyConnectedOp_CUDAContext_TensorCoreEngine_RunOnDevice
            (device_with_major 7) (routine_returning true))
  /\ engine_of (FullyConnectedOp TensorCoreEngine true) = TensorCoreEngine
  /\ IsType float16 (Input (operator_on float16 true 0) 0) = true
  /\ device_queries
       (snd (FullyConnectedOp_CUDAContext_TensorCoreEngine_RunOnDevice
               (device_with_major 7) (routine_returning true)
               (operator_on float16 true 0))) = []
  /\ snd (FullyConnectedOp_CUDAContext_TensorCoreEngine_RunOnDevice
            (device_with_major 7) (routine_returning true)
            (operator_on float16 true 0))
     = [EvDoRunWithType fc_half_math_full].
Proof.
  pose proof (tensorcore_entry_points_never_look_up_device
                (device_with_major 7) (routine_returning true)
                (routine_returning true) 9000
                (FullyConnectedOp TensorCoreEngine true) _
                (operator_on float16 true 0) eq_refl eq_refl) as [Hq Htr].
  split; [ reflexivity | split; [ reflexivity | split; [ reflexivity | ] ] ].
  split; [ exact Hq | exact (Htr eq_refl) ].
Defined.

Lemma registrations_follow_naming_scheme_witness :
  In tensorcore_fc_registration (registrations 9000)
  /\ reg_name tensorcore_fc_registration
     = operator_name (reg_class tensorcore_fc_registration)
  /\ reg_engine tensorcore_fc_registration
     = engine_key (engine_of (reg_class tensorcore_fc_registration)).
Proof.
  assert (Hin : In tensorcore_fc_registration (registrations 9000)).
  { cbn. right. right. right. right. left. reflexivity. }
  split; [ exact Hin | ].
  exact (registrations_follow_naming_scheme 9000
           tensorcore_fc_registration Hin).
Defined.

Lemma forward_registration_has_gradient_registration_witness :
  In (REGISTER_CUDA_OPERATOR "FCTransposed"
        (FullyConnectedOp DefaultEngine false)) (registrations 8000)
  /\ is_gradient (FullyConnectedOp DefaultEngine false) = false
  /\ In (REGISTER_CUDA_OPERATOR "FCTransposedGradient"
           (FullyConnectedGradientOp DefaultEngine false))
        (registrations 8000).
Proof.
  assert (Hin : In (REGISTER_CUDA_OPERATOR "FCTransposed"
                      (FullyConnectedOp DefaultEngine false))
                   (registrations 8000)).
  { cbn. right. right. left. reflexivity. }
  split; [ exact Hin | split; [ reflexivity | ] ].
  exact (forward_registration_has_gradient_registration 8000 _ Hin eq_refl).
Defined.

Lemma flag_matters_only_for_half_on_capable_device_witness :
  (IsType float16 (Input (operator_on float16 true 0) 0) = false
   \/ major (device_with_major 5 0) < kFp16CUDADevicePropMajor)
  /\ invocations
       (snd (RunFullyConnectedOpOnCUDADevice (device_with_major 5)
               (routine_returning true) true (operator_on float16 true 0)))
     = invocations
         (snd (RunFullyConnectedOpOnCUDADevice (device_with_major 5)
                 (routine_returning true) false (operator_on float16 true 0)))
  /\ invocations
       (snd (RunFullyConnectedGradientOpOnCUDADevice (device_with_major 5)
               (routine_returning true) true (operator_on float16 true 0)))
     = invocations
         (snd (RunFullyConnectedGradientOpOnCUDADevice (device_with_major 5)
                 (routine_returning true) false
                 (operator_on float16 true 0))).
Proof.
  assert (Hcase :
    IsType float16 (Input (operator_on float16 true 0) 0) = false
    \/ major (device_with_major 5 0) < kFp16CUDADevicePropMajor).
  { right. reflexivity. }
  split; [ exact Hcase | ].
  exact (flag_matters_only_for_half_on_capable_device (device_with_major 5)
           (routine_returning true) (routine_returning true)
           true false (operator_on float16 true 0) Hcase).
Defined.

Lemma dispatch_reads_only_input0_type_witness :
  meta (Input (operator_with_inputs float16 float true 0) 0)
    = meta (Input (operator_with_inputs float16 double false 3) 0)
  /\ snd (RunFullyConnectedOpOnCUDADevice (device_with_major 7)
            (routine_returning true) true
            (operator_with_inputs float16 float true 0))
     = snd (RunFullyConnectedOpOnCUDADevice (device_with_major 7)
              (routine_returning true) true
              (operator_with_inputs float16 double false 3))
  /\ snd (RunFullyConnectedGradientOpOnCUDADevice (device_with_major 7)
            (routine_returning true) true
            (operator_with_inputs float16 float true 0))
     = snd (RunFullyConnectedGradientOpOnCUDADevice (device_with_major 7)
              (routine_returning true) true
              (operator_with_inputs float16 double false 3)).
Proof.
  split; [ reflexivity | ].
  exact (dispatch_reads_only_input0_type (device_with_major 7)
           (routine_returning true) (routine_returning true) true
           (operator_with_inputs float16 float true 0)
           (operator_with_inputs float16 double false 3) eq_refl).
Defined.

Lemma only_device_zero_threshold_matters_witness :
  (major (device_with_major 7 0) >=? kFp16CUDADevicePropMajor)
    = (major (device_zero_with_major 9 2 0) >=? kFp16CUDADevicePropMajor)
  /\ snd (RunFullyConnectedOpOnCUDADevice (device_with_major 7)
            (routine_returning true) true (operator_on float16 true 1))
     = snd (RunFullyConnectedOpOnCUDADevice (device_zero_with_major 9 2)
              (routine_returning true) true (operator_on float16 true 1))
  /\ snd (RunFullyConnectedGradientOpOnCUDADevice (device_with_major 7)
            (routine_returning true) true (operator_on float16 true 1))
     = snd (RunFullyConnectedGradientOpOnCUDADevice
              (device_zero_with_major 9 2) (routine_returning true) true
              (operator_on float16 true 1)).
Proof.
  split; [ reflexivity | ].
  exact (only_device_zero_threshold_matters (device_with_major 7)
           (routine_returning true) (routine_returning true)
           (device_zero_with_major 9 2) true (operator_on float16 true 1)
           eq_refl).
Defined.
